(** * Wet-bulb calculator: the estimator of [src/routes/+page.svelte]

    The page computes a wet-bulb temperature from a dry-bulb temperature and
    a relative humidity with Stull's 2011 closed formula, after clamping both
    inputs into the ranges of the two sliders.

    JavaScript numbers are embedded as the extended reals with a NaN: a value
    is NaN, one of the two infinities, or a finite real.  Arithmetic on finite
    values is exact real arithmetic, so rounding, overflow and the sign of
    zero are idealised away; the special values follow ECMAScript. *)

From Stdlib Require Import Reals Lra Lia ZArith Bool String List.
Import ListNotations.

Local Open Scope R_scope.

(** ** Numbers *)

Inductive number : Type :=
| NaN
| PosInfinity
| NegInfinity
| Fin (r : R).

Declare Scope num_scope.
Delimit Scope num_scope with num.
Bind Scope num_scope with number.

(** [Number.isFinite] *)
Definition Number_isFinite (v : number) : bool :=
  match v with
  | Fin _ => true
  | _ => false
  end.

(** Sign of a finite factor that multiplies an infinity. *)
Definition scale_infinity (positive : bool) (x : R) : number :=
  if Rlt_dec 0 x then (if positive then PosInfinity else NegInfinity)
  else if Rlt_dec x 0 then (if positive then NegInfinity else PosInfinity)
  else NaN.

Definition num_add (a b : number) : number :=
  match a, b with
  | NaN, _ | _, NaN => NaN
  | Fin x, Fin y => Fin (x + y)
  | PosInfinity, NegInfinity | NegInfinity, PosInfinity => NaN
  | PosInfinity, _ | _, PosInfinity => PosInfinity
  | NegInfinity, _ | _, NegInfinity => NegInfinity
  end.

Definition num_opp (a : number) : number :=
  match a with
  | NaN => NaN
  | PosInfinity => NegInfinity
  | NegInfinity => PosInfinity
  | Fin x => Fin (- x)
  end.

Definition num_sub (a b : number) : number := num_add a (num_opp b).

Definition num_mul (a b : number) : number :=
  match a, b with
  | NaN, _ | _, NaN => NaN
  | Fin x, Fin y => Fin (x * y)
  | PosInfinity, PosInfinity | NegInfinity, NegInfinity => PosInfinity
  | PosInfinity, NegInfinity | NegInfinity, PosInfinity => NegInfinity
  | PosInfinity, Fin x | Fin x, PosInfinity => scale_infinity true x
  | NegInfinity, Fin x | Fin x, NegInfinity => scale_infinity false x
  end.

Infix "+" := num_add : num_scope.
Infix "-" := num_sub : num_scope.
Infix "*" := num_mul : num_scope.

(** The relational operators [<] and [<=]: false as soon as a NaN is
    involved. *)
Definition num_lt (a b : number) : Prop :=
  match a, b with
  | NaN, _ | _, NaN => False
  | Fin x, Fin y => x < y
  | NegInfinity, NegInfinity => False
  | NegInfinity, _ => True
  | _, PosInfinity => match a with PosInfinity => False | _ => True end
  | _, _ => False
  end.

Definition num_le (a b : number) : Prop :=
  match a, b with
  | NaN, _ | _, NaN => False
  | Fin x, Fin y => x <= y
  | NegInfinity, _ => True
  | _, PosInfinity => True
  | _, _ => False
  end.

(** ** The [Math] functions the page calls *)

Definition Math_max (a b : number) : number :=
  match a, b with
  | NaN, _ | _, NaN => NaN
  | Fin x, Fin y => Fin (Rmax x y)
  | PosInfinity, _ | _, PosInfinity => PosInfinity
  | NegInfinity, v | v, NegInfinity => v
  end.

Definition Math_min (a b : number) : number :=
  match a, b with
  | NaN, _ | _, NaN => NaN
  | Fin x, Fin y => Fin (Rmin x y)
  | NegInfinity, _ | _, NegInfinity => NegInfinity
  | PosInfinity, v | v, PosInfinity => v
  end.

Definition Math_sqrt (a : number) : number :=
  match a with
  | NaN | NegInfinity => NaN
  | PosInfinity => PosInfinity
  | Fin x => if Rlt_dec x 0 then NaN else Fin (sqrt x)
  end.

Definition Math_atan (a : number) : number :=
  match a with
  | NaN => NaN
  | PosInfinity => Fin (PI / 2)
  | NegInfinity => Fin (- (PI / 2))
  | Fin x => Fin (atan x)
  end.

(** Is the real an integer, and if so is it odd. *)
Definition is_integer (y : R) : bool :=
  if Req_dec_T (frac_part y) 0 then true else false.

Definition is_odd_integer (y : R) : bool :=
  is_integer y && Z.odd (Int_part y).

(** [Math.pow], by the cases of ECMAScript's Number::exponentiate. *)
Definition Math_pow (base exponent : number) : number :=
  match exponent with
  | NaN => NaN
  | PosInfinity =>
      match base with
      | NaN => NaN
      | PosInfinity | NegInfinity => PosInfinity
      | Fin x =>
          if Rlt_dec 1 (Rabs x) then PosInfinity
          else if Req_dec_T (Rabs x) 1 then NaN
          else Fin 0
      end
  | NegInfinity =>
      match base with
      | NaN => NaN
      | PosInfinity | NegInfinity => Fin 0
      | Fin x =>
          if Rlt_dec 1 (Rabs x) then Fin 0
          else if Req_dec_T (Rabs x) 1 then NaN
          else PosInfinity
      end
  | Fin y =>
      if Req_dec_T y 0 then Fin 1
      else
        match base with
        | NaN => NaN
        | PosInfinity => if Rlt_dec 0 y then PosInfinity else Fin 0
        | NegInfinity =>
            if Rlt_dec 0 y
            then (if is_odd_integer y then NegInfinity else PosInfinity)
            else Fin 0
        | Fin x =>
            if Rlt_dec 0 x then Fin (Rpower x y)
            else if Req_dec_T x 0
                 then (if Rlt_dec 0 y then Fin 0 else PosInfinity)
                 else if is_integer y
                      then Fin (if Z.odd (Int_part y)
                                then - Rpower (- x) y
                                else Rpower (- x) y)
                      else NaN
        end
  end.

(** ** The page's constants and functions *)

Record range : Type := { min : number; max : number }.

Definition TEMPERATURE_RANGE : range := {| min := Fin (-40); max := Fin 60 |}.
Definition HUMIDITY_RANGE : range := {| min := Fin 0; max := Fin 100 |}.

Definition clamp (value : number) (r : range) : number :=
  Math_min (Math_max value (min r)) (max r).

(** The humidity after clamping, and the two arguments handed to the partial
    operations of the formula. *)
Definition clamped_humidity (relHumidity : number) : number :=
  clamp relHumidity HUMIDITY_RANGE.

Definition sqrt_argument (relHumidity : number) : number :=
  (clamped_humidity relHumidity + Fin 8.313659)%num.

Definition pow_base (relHumidity : number) : number :=
  clamped_humidity relHumidity.

Definition calculateWetBulb (tempCelsius relHumidity : number) : number :=
  if negb (Number_isFinite tempCelsius) || negb (Number_isFinite relHumidity)
  then NaN
  else
    let T := clamp tempCelsius TEMPERATURE_RANGE in
    let RH := clamp relHumidity HUMIDITY_RANGE in
    let rhSqrt := Math_sqrt (RH + Fin 8.313659) in
    let wetBulb :=
      (T * Math_atan (Fin 0.151977 * rhSqrt) +
       Math_atan (T + RH) -
       Math_atan (RH - Fin 1.676331) +
       Fin 0.00391838 * Math_pow RH (Fin 1.5) * Math_atan (Fin 0.023101 * RH) -
       Fin 4.686035)%num in
    wetBulb.

(** ** The component's variables

    The script block keeps three variables that are assigned to ([temperature],
    [humidity], [isDark]), the derived [wetBulb] and, in the browser, the
    stored theme.  A call of a function of the page runs against this store
    and returns its value with the store it leaves behind. *)

Record component : Type := {
  temperature : number;
  humidity : number;
  isDark : bool;
  wetBulb : number;
  storedTheme : option string
}.

Definition call (A : Type) : Type := component -> A * component.

Definition ret {A : Type} (a : A) : call A := fun s => (a, s).

(** [calculateWetBulb(t, rh)] as a call: the body reads its two parameters
    and the two constant ranges, and assigns to nothing outside itself. *)
Definition call_calculateWetBulb (tempCelsius relHumidity : number) : call number :=
  ret (calculateWetBulb tempCelsius relHumidity).

(** The reactive statement [$: wetBulb = calculateWetBulb(temperature, humidity)]. *)
Definition react_wetBulb (s : component) : component :=
  let (v, s') := call_calculateWetBulb (temperature s) (humidity s) s in
  {| temperature := temperature s';
     humidity := humidity s';
     isDark := isDark s';
     wetBulb := v;
     storedTheme := storedTheme s' |}.

(** ** Stull's formula over the reals, as the specification writes it *)

(** [RH ^ 1.5] for a non-negative real: [RH ^ (3/2) = RH * sqrt RH]. *)
Definition pow_three_halves (x : R) : R := x * sqrt x.

Definition stull (T RH : R) : R :=
  let s := sqrt (RH + 8.313659) in
  T * atan (0.151977 * s)
  + atan (T + RH)
  - atan (RH - 1.676331)
  + 0.00391838 * pow_three_halves RH * atan (0.023101 * RH)
  - 4.686035.

(** Clamping of a real into an interval, as the specification writes it. *)
Definition clamp_real (lo hi v : R) : R := Rmin (Rmax v lo) hi.

(** ** Displaying a number *)

(** [formatNumber].  What [value.toLocaleString(undefined,
    { maximumFractionDigits: 1 })] prints depends on the locale of the
    runtime, so the formatting of a finite value is a parameter. *)
Definition formatNumber (toLocaleString : R -> string) (value : number) : string :=
  match value with
  | Fin r => toLocaleString r
  | _ => "—"%string
  end.

(** ** The theme code and the browser it runs against

    Besides the variables of the script, the theme code reads and writes
    the browser: the [browser] flag of [$app/environment], the preference
    that [window.matchMedia('(prefers-color-scheme: dark)')] reports, the
    listeners registered on that query, the class list and the colour scheme
    of [document.documentElement].  [localStorage] is used under the single
    key ['theme'], which is the field [storedTheme]. A handler is known by the
    number of the closure that was created for it. *)

Inductive MediaQueryList : Type := prefers_color_scheme_dark.

Record world : Type := {
  browser : bool;
  vars : component;
  mediaQuery : option MediaQueryList;
  mediaQueryHandler : option nat;
  nextClosure : nat;
  prefersDark : bool;
  changeListeners : list nat;
  classList : list string;
  colorScheme : string
}.

(** [mediaQuery.matches] is live: it is the current preference. *)
Definition matches (q : MediaQueryList) (w : world) : bool := prefersDark w.

Definition set_vars (c : component) (w : world) : world :=
  {| browser := browser w; vars := c; mediaQuery := mediaQuery w;
     mediaQueryHandler := mediaQueryHandler w; nextClosure := nextClosure w;
     prefersDark := prefersDark w; changeListeners := changeListeners w;
     classList := classList w; colorScheme := colorScheme w |}.

(** [isDark = b] *)
Definition set_isDark (b : bool) (w : world) : world :=
  set_vars {| temperature := temperature (vars w); humidity := humidity (vars w);
              isDark := b; wetBulb := wetBulb (vars w);
              storedTheme := storedTheme (vars w) |} w.

(** [localStorage.getItem('theme')], [setItem('theme', v)] and
    [removeItem('theme')] *)
Definition localStorage_getItem_theme (w : world) : option string :=
  storedTheme (vars w).

Definition localStorage_write_theme (v : option string) (w : world) : world :=
  set_vars {| temperature := temperature (vars w); humidity := humidity (vars w);
              isDark := isDark (vars w); wetBulb := wetBulb (vars w);
              storedTheme := v |} w.

Definition localStorage_setItem_theme (v : string) : world -> world :=
  localStorage_write_theme (Some v).

Definition localStorage_removeItem_theme : world -> world :=
  localStorage_write_theme None.

(** [classList.contains(token)] and [classList.toggle(token, force)] *)
Definition classList_contains (token : string) (l : list string) : bool :=
  existsb (String.eqb token) l.

Definition classList_toggle (token : string) (force : bool) (l : list string)
  : list string :=
  if force
  then (if classList_contains token l then l else l ++ [token])
  else filter (fun c => negb (String.eqb token c)) l.

(** [addEventListener('change', h)] and [removeEventListener('change', h)]
    on the media query: a listener is registered at most once. *)
Definition addEventListener (h : nat) (l : list nat) : list nat :=
  if existsb (Nat.eqb h) l then l else l ++ [h].

Definition removeEventListener (h : nat) (l : list nat) : list nat :=
  filter (fun k => negb (Nat.eqb h k)) l.

Definition set_browser_side (q : option MediaQueryList) (h : option nat)
  (next : nat) (ls : list nat) (w : world) : world :=
  {| browser := browser w; vars := vars w; mediaQuery := q;
     mediaQueryHandler := h; nextClosure := next;
     prefersDark := prefersDark w; changeListeners := ls;
     classList := classList w; colorScheme := colorScheme w |}.

Definition set_document (cl : list string) (scheme : string) (w : world) : world :=
  {| browser := browser w; vars := vars w; mediaQuery := mediaQuery w;
     mediaQueryHandler := mediaQueryHandler w; nextClosure := nextClosure w;
     prefersDark := prefersDark w; changeListeners := changeListeners w;
     classList := cl; colorScheme := scheme |}.

Definition theme_is (name : string) (stored : option string) : bool :=
  match stored with
  | Some v => String.eqb v name
  | None => false
  end.

(** The body of the handler that [onMount] registers:
    [({ matches }) => { if (localStorage.getItem('theme') === null) isDark = matches }] *)
Definition mediaQueryHandler_body (m : bool) (w : world) : world :=
  match localStorage_getItem_theme w with
  | None => set_isDark m w
  | Some _ => w
  end.

(** The callback given to [onMount]. *)
Definition onMount_callback (w : world) : world :=
  if negb (browser w) then w
  else
    let q := prefers_color_scheme_dark in
    let storedTheme := localStorage_getItem_theme w in
    let w1 :=
      if theme_is "dark" storedTheme || theme_is "light" storedTheme
      then set_isDark (theme_is "dark" storedTheme) w
      else set_isDark (matches q w) w in
    let h := nextClosure w1 in
    set_browser_side (Some q) (Some h) (S h)
      (addEventListener h (changeListeners w1)) w1.

(** The callback given to [onDestroy]. *)
Definition onDestroy_callback (w : world) : world :=
  match mediaQuery w, mediaQueryHandler w with
  | Some _, Some h =>
      set_browser_side (mediaQuery w) (mediaQueryHandler w) (nextClosure w)
        (removeEventListener h (changeListeners w)) w
  | _, _ => w
  end.

Definition updateTheme (w : world) : world :=
  if negb (browser w) then w
  else
    let theme := (if isDark (vars w) then "dark" else "light")%string in
    localStorage_setItem_theme theme
      (set_document (classList_toggle "dark" (isDark (vars w)) (classList w))
         theme w).

Definition clearStoredTheme (w : world) : world :=
  if negb (browser w) then w
  else
    let w1 := localStorage_removeItem_theme w in
    set_isDark (match mediaQuery w1 with
                | Some q => matches q w1
                | None => false
                end) w1.

Definition set_prefersDark (m : bool) (w : world) : world :=
  {| browser := browser w; vars := vars w; mediaQuery := mediaQuery w;
     mediaQueryHandler := mediaQueryHandler w; nextClosure := nextClosure w;
     prefersDark := m; changeListeners := changeListeners w;
     classList := classList w; colorScheme := colorScheme w |}.

(** A ['change'] event runs every listener that is registered on the media
    query.  The listeners are the closures that [onMount] created: each has
    the body of the handler and writes the same [isDark]. *)
Definition dispatch_change (m : bool) (listeners : list nat) (w : world) : world :=
  fold_left (fun acc _ => mediaQueryHandler_body m acc) listeners w.

(** The browser reports a new colour-scheme preference: [matches] changes
    and the registered listeners run. *)
Definition preference_change (m : bool) (w : world) : world :=
  dispatch_change m (changeListeners w) (set_prefersDark m w).

(** The reactive statements of the script, [$: updateTheme()] and
    [$: wetBulb = calculateWetBulb(temperature, humidity)], in their order.
    They run when the component is initialised, before the callback of
    [onMount]. *)
Definition run_reactive_statements (w : world) : world :=
  let w1 := updateTheme w in
  set_vars (react_wetBulb (vars w1)) w1.

(** The start of the page: the reactive statements, then the callback of
    [onMount]. *)
Definition page_start (w : world) : world :=
  onMount_callback (run_reactive_statements w).

(** A page before anything has run: the variables as the script declares
    them, nothing registered, an empty class list. *)
Definition fresh_page (in_browser prefers : bool) (stored : option string) : world :=
  {| browser := in_browser;
     vars := {| temperature := Fin 32; humidity := Fin 60; isDark := false;
                wetBulb := NaN; storedTheme := stored |};
     mediaQuery := None; mediaQueryHandler := None; nextClosure := 0;
     prefersDark := prefers; changeListeners := [];
     classList := []; colorScheme := EmptyString |}.

(** [isDark] after the callback of [onMount] has run in the browser. *)
Definition mounted_isDark (w : world) : bool :=
  if theme_is "dark" (localStorage_getItem_theme w)
     || theme_is "light" (localStorage_getItem_theme w)
  then theme_is "dark" (localStorage_getItem_theme w)
  else prefersDark w.

(** ** The body of [calculateWetBulb] as it runs

    The body reads two objects, [TEMPERATURE_RANGE] and [HUMIDITY_RANGE],
    whose fields JavaScript lets any code assign, and it runs in a page whose
    variables, storage and document a function can write.  A computation
    takes the heap it runs in and returns its value with the heap it leaves
    behind. *)

Inductive object_ref : Type := TEMPERATURE_RANGE_ref | HUMIDITY_RANGE_ref.

Record heap : Type := { objects : object_ref -> range; page : world }.

Definition js (A : Type) : Type := heap -> A * heap.

Definition js_ret {A : Type} (a : A) : js A := fun h => (a, h).

Definition js_bind {A B : Type} (c : js A) (k : A -> js B) : js B :=
  fun h => let (a, h') := c h in k a h'.

Notation "x <- c ;; k" := (js_bind c (fun x => k))
  (at level 61, c at next level, right associativity).

(** Reading a field of an object, reading a variable of the script and
    assigning to [wetBulb]. *)
Definition get_min (o : object_ref) : js number :=
  fun h => (min (objects h o), h).

Definition get_max (o : object_ref) : js number :=
  fun h => (max (objects h o), h).

Definition get_temperature : js number :=
  fun h => (temperature (vars (page h)), h).

Definition get_humidity : js number :=
  fun h => (humidity (vars (page h)), h).

Definition assign_wetBulb (v : number) : js unit :=
  fun h =>
    (tt,
     {| objects := objects h;
        page :=
          set_vars {| temperature := temperature (vars (page h));
                      humidity := humidity (vars (page h));
                      isDark := isDark (vars (page h));
                      wetBulb := v;
                      storedTheme := storedTheme (vars (page h)) |} (page h) |}).

(** [clamp(value, { min, max })]: the parameter is destructured, [min] then
    [max], and the object is not written. *)
Definition clamp_js (value : number) (o : object_ref) : js number :=
  lo <- get_min o ;;
  hi <- get_max o ;;
  js_ret (Math_min (Math_max value lo) hi).

Definition calculateWetBulb_js (tempCelsius relHumidity : number) : js number :=
  if negb (Number_isFinite tempCelsius) || negb (Number_isFinite relHumidity)
  then js_ret NaN
  else
    T <- clamp_js tempCelsius TEMPERATURE_RANGE_ref ;;
    RH <- clamp_js relHumidity HUMIDITY_RANGE_ref ;;
    let rhSqrt := Math_sqrt (RH + Fin 8.313659) in
    let wetBulb :=
      (T * Math_atan (Fin 0.151977 * rhSqrt) +
       Math_atan (T + RH) -
       Math_atan (RH - Fin 1.676331) +
       Fin 0.00391838 * Math_pow RH (Fin 1.5) * Math_atan (Fin 0.023101 * RH) -
       Fin 4.686035)%num in
    js_ret wetBulb.

(** The body of [calculateWetBulb] with the two ranges it reads as
    parameters. *)
Definition calculateWetBulb_on (rT rRH : range) (tempCelsius relHumidity : number)
  : number :=
  if negb (Number_isFinite tempCelsius) || negb (Number_isFinite relHumidity)
  then NaN
  else
    let T := clamp tempCelsius rT in
    let RH := clamp relHumidity rRH in
    let rhSqrt := Math_sqrt (RH + Fin 8.313659) in
    (T * Math_atan (Fin 0.151977 * rhSqrt) +
     Math_atan (T + RH) -
     Math_atan (RH - Fin 1.676331) +
     Fin 0.00391838 * Math_pow RH (Fin 1.5) * Math_atan (Fin 0.023101 * RH) -
     Fin 4.686035)%num.

(** [$: wetBulb = calculateWetBulb(temperature, humidity)] as it runs: the
    one place of the script that assigns to [wetBulb]. *)
Definition react_wetBulb_js : js unit :=
  t <- get_temperature ;;
  rh <- get_humidity ;;
  v <- calculateWetBulb_js t rh ;;
  assign_wetBulb v.

(** The two objects as the script declares them. *)
Definition declared_objects (o : object_ref) : range :=
  match o with
  | TEMPERATURE_RANGE_ref => TEMPERATURE_RANGE
  | HUMIDITY_RANGE_ref => HUMIDITY_RANGE
  end.

(** ** Clamping *)

Lemma clamp_real_bounds (lo hi v : R) :
  lo <= hi -> lo <= clamp_real lo hi v <= hi.
Proof.
  intros Hlohi. unfold clamp_real, Rmin, Rmax.
  destruct (Rle_dec v lo); destruct (Rle_dec _ hi); lra.
Qed.

Lemma clamp_real_inside (lo hi v : R) :
  lo <= v <= hi -> clamp_real lo hi v = v.
Proof.
  intros [Hlo Hhi]. unfold clamp_real, Rmin, Rmax.
  destruct (Rle_dec v lo); destruct (Rle_dec _ hi); lra.
Qed.

Lemma clamp_real_below (lo hi v : R) :
  lo <= hi -> v <= lo -> clamp_real lo hi v = lo.
Proof.
  intros Hlohi Hv. unfold clamp_real, Rmin, Rmax.
  destruct (Rle_dec v lo); destruct (Rle_dec _ hi); lra.
Qed.

Lemma clamp_real_above (lo hi v : R) :
  lo <= hi -> hi <= v -> clamp_real lo hi v = hi.
Proof.
  intros Hlohi Hv. unfold clamp_real, Rmin, Rmax.
  destruct (Rle_dec v lo); destruct (Rle_dec _ hi); lra.
Qed.

Lemma clamp_real_idempotent (lo hi v : R) :
  lo <= hi -> clamp_real lo hi (clamp_real lo hi v) = clamp_real lo hi v.
Proof.
  intros Hlohi. apply clamp_real_inside, clamp_real_bounds, Hlohi.
Qed.

Lemma clamp_Fin (v lo hi : R) :
  clamp (Fin v) {| min := Fin lo; max := Fin hi |} = Fin (clamp_real lo hi v).
Proof. reflexivity. Qed.

Lemma clamp_temperature (t : R) :
  clamp (Fin t) TEMPERATURE_RANGE = Fin (clamp_real (-40) 60 t).
Proof. apply clamp_Fin. Qed.

Lemma clamp_humidity (rh : R) :
  clamp (Fin rh) HUMIDITY_RANGE = Fin (clamp_real 0 100 rh).
Proof. apply clamp_Fin. Qed.

(** ** The partial operations on the clamped humidity *)

Lemma Math_sqrt_nonneg (x : R) : 0 <= x -> Math_sqrt (Fin x) = Fin (sqrt x).
Proof.
  intros Hx. unfold Math_sqrt. destruct (Rlt_dec x 0); [lra | reflexivity].
Qed.

Lemma Rpower_three_halves (x : R) : 0 < x -> Rpower x 1.5 = x * sqrt x.
Proof.
  intros Hx. replace 1.5 with (1 + / 2) by lra.
  rewrite Rpower_plus, Rpower_1, Rpower_sqrt by assumption. reflexivity.
Qed.

Lemma Math_pow_three_halves (x : R) :
  0 <= x -> Math_pow (Fin x) (Fin 1.5) = Fin (pow_three_halves x).
Proof.
  intros Hx. unfold Math_pow, pow_three_halves.
  destruct (Req_dec_T 1.5 0) as [E | _]; [lra |].
  destruct (Rlt_dec 0 x) as [Hpos | Hnpos].
  - now rewrite Rpower_three_halves.
  - destruct (Req_dec_T x 0) as [-> | Hne]; [| lra].
    destruct (Rlt_dec 0 1.5); [| lra].
    now rewrite Rmult_0_l.
Qed.

(** On finite inputs the body after the guard is Stull's expression at the
    clamped values. *)
Lemma calculateWetBulb_Fin (t rh : R) :
  calculateWetBulb (Fin t) (Fin rh)
  = Fin (stull (clamp_real (-40) 60 t) (clamp_real 0 100 rh)).
Proof.
  unfold calculateWetBulb. cbn [Number_isFinite negb orb].
  rewrite clamp_temperature, clamp_humidity.
  assert (Hrh : 0 <= clamp_real 0 100 rh <= 100)
    by (apply clamp_real_bounds; lra).
  set (RH := clamp_real 0 100 rh) in *.
  set (T := clamp_real (-40) 60 t).
  cbn [num_add]. rewrite Math_sqrt_nonneg by lra.
  rewrite Math_pow_three_halves by lra.
  reflexivity.
Qed.

(** Inside the two ranges clamping changes nothing. *)
Lemma calculateWetBulb_in_range (T RH : R) :
  -40 <= T <= 60 -> 0 <= RH <= 100 ->
  calculateWetBulb (Fin T) (Fin RH) = Fin (stull T RH).
Proof.
  intros HT HRH. rewrite calculateWetBulb_Fin.
  now rewrite !clamp_real_inside by assumption.
Qed.

Lemma calculateWetBulb_not_finite (a b : number) :
  Number_isFinite a = false \/ Number_isFinite b = false ->
  calculateWetBulb a b = NaN.
Proof.
  intros [H | H]; unfold calculateWetBulb; rewrite H; cbn.
  - reflexivity.
  - now rewrite orb_true_r.
Qed.

(** The reactive statement stores the value and touches nothing else, so
    running it again changes nothing. *)
Lemma react_wetBulb_idempotent (s : component) :
  react_wetBulb (react_wetBulb s) = react_wetBulb s.
Proof. reflexivity. Qed.

(** ** The body of [calculateWetBulb] on the heap *)

Lemma clamp_js_run (value : number) (o : object_ref) (h : heap) :
  clamp_js value o h = (clamp value (objects h o), h).
Proof. reflexivity. Qed.

Lemma calculateWetBulb_js_run (t rh : number) (h : heap) :
  calculateWetBulb_js t rh h
  = (calculateWetBulb_on (objects h TEMPERATURE_RANGE_ref)
       (objects h HUMIDITY_RANGE_ref) t rh, h).
Proof.
  unfold calculateWetBulb_js, calculateWetBulb_on.
  destruct (negb (Number_isFinite t) || negb (Number_isFinite rh));
    [reflexivity |].
  unfold js_bind. rewrite !clamp_js_run. reflexivity.
Qed.

Lemma calculateWetBulb_js_preserves_heap (t rh : number) (h : heap) :
  snd (calculateWetBulb_js t rh h) = h.
Proof. now rewrite calculateWetBulb_js_run. Qed.

Lemma calculateWetBulb_js_value (t rh : number) (h : heap) :
  fst (calculateWetBulb_js t rh h)
  = calculateWetBulb_on (objects h TEMPERATURE_RANGE_ref)
      (objects h HUMIDITY_RANGE_ref) t rh.
Proof. now rewrite calculateWetBulb_js_run. Qed.

(** The reactive statement on the heap writes [wetBulb] and nothing else, and
    with the objects as declared it stores what [react_wetBulb] stores. *)
Lemma react_wetBulb_js_run (h : heap) :
  objects h = declared_objects ->
  snd (react_wetBulb_js h)
  = {| objects := objects h;
       page := set_vars (react_wetBulb (vars (page h))) (page h) |}.
Proof.
  intros Ho. unfold react_wetBulb_js, js_bind, get_temperature, get_humidity.
  rewrite calculateWetBulb_js_run.
  replace (objects h TEMPERATURE_RANGE_ref) with TEMPERATURE_RANGE
    by (now rewrite Ho).
  replace (objects h HUMIDITY_RANGE_ref) with HUMIDITY_RANGE
    by (now rewrite Ho).
  reflexivity.
Qed.

(** ** Enclosures of [PI], [atan] and [sqrt] by rationals *)

Lemma PI_bounds : 3.1415 < PI < 3.1421.
Proof.
  generalize (PI_2_3_7_ineq 1).
  unfold PI_2_3_7_tg, tg_alt, Ratan_seq. simpl. lra.
Qed.

Lemma atan_series_bounds (x : R) (N : nat) :
  0 < x < 1 ->
  sum_f_R0 (tg_alt (Ratan_seq x)) (S (2 * N)) <= atan x
  <= sum_f_R0 (tg_alt (Ratan_seq x)) (2 * N).
Proof.
  intros Hx.
  assert (H01 : 0 <= x <= 1) by lra.
  rewrite atan_eq_ps_atan by assumption.
  unfold ps_atan. destruct (Ratan.in_int x) as [Hin | Hout]; [| exfalso; apply Hout; lra].
  destruct (ps_atan_exists_1 x Hin) as [v Hv].
  apply alternated_series_ineq.
  - now apply Ratan_seq_decreasing.
  - now apply Ratan_seq_converging.
  - exact Hv.
Qed.

Lemma atan_bounds_1 (x : R) :
  0 < x < 1 -> x - x ^ 3 / 3 <= atan x <= x.
Proof.
  intros Hx. generalize (atan_series_bounds x 0 Hx).
  unfold tg_alt, Ratan_seq. simpl. lra.
Qed.

Lemma atan_bounds_2 (x : R) :
  0 < x < 1 ->
  x - x ^ 3 / 3 + x ^ 5 / 5 - x ^ 7 / 7 <= atan x <= x - x ^ 3 / 3 + x ^ 5 / 5.
Proof.
  intros Hx. generalize (atan_series_bounds x 1 Hx).
  unfold tg_alt, Ratan_seq. simpl. lra.
Qed.

Lemma atan_le (x y : R) : x <= y -> atan x <= atan y.
Proof.
  intros [Hlt | ->]; [left; now apply atan_increasing | right; reflexivity].
Qed.

Lemma atan_pos (x : R) : 0 < x -> 0 < atan x.
Proof. intros Hx. rewrite <- atan_0. now apply atan_increasing. Qed.

Lemma atan_shift_1 (x : R) : 0 < x -> atan x = PI / 4 + atan ((x - 1) / (1 + x)).
Proof.
  intros Hx. rewrite <- atan_1.
  replace ((x - 1) / (1 + x)) with (atan_sub x 1)
    by (unfold atan_sub; now rewrite Rmult_1_r).
  apply atan_sub_correct.
  - lra.
  - pose proof (atan_bound x) as Hb. pose proof (atan_pos x Hx) as Hp.
    rewrite atan_1. pose proof PI_RGT_0. lra.
  - apply atan_bound.
Qed.

Lemma shift_in_unit (x : R) : 1 < x -> 0 < (x - 1) / (1 + x) < 1.
Proof.
  intros Hx. split.
  - apply Rdiv_lt_0_compat; lra.
  - apply (Rmult_lt_reg_r (1 + x)); [lra |].
    unfold Rdiv. rewrite Rmult_assoc, Rinv_l by lra. lra.
Qed.

Lemma atan_enclose_1 (x lo hi : R) :
  1 < lo -> lo <= x <= hi ->
  PI / 4 + ((lo - 1) / (1 + lo) - ((lo - 1) / (1 + lo)) ^ 3 / 3) <= atan x
  <= PI / 4 + (hi - 1) / (1 + hi).
Proof.
  intros Hlo [Hl Hh].
  pose proof (atan_le _ _ Hl) as H1. pose proof (atan_le _ _ Hh) as H2.
  rewrite (atan_shift_1 lo) in H1 by lra.
  rewrite (atan_shift_1 hi) in H2 by lra.
  pose proof (atan_bounds_1 _ (shift_in_unit lo Hlo)) as B1.
  assert (Hhi : 1 < hi) by lra.
  pose proof (atan_bounds_1 _ (shift_in_unit hi Hhi)) as B2.
  lra.
Qed.

Lemma atan_enclose_2 (x lo hi : R) :
  1 < lo -> lo <= x <= hi ->
  PI / 4 + ((lo - 1) / (1 + lo) - ((lo - 1) / (1 + lo)) ^ 3 / 3) <= atan x
  <= PI / 4 + ((hi - 1) / (1 + hi) - ((hi - 1) / (1 + hi)) ^ 3 / 3
               + ((hi - 1) / (1 + hi)) ^ 5 / 5).
Proof.
  intros Hlo [Hl Hh].
  pose proof (atan_le _ _ Hl) as H1. pose proof (atan_le _ _ Hh) as H2.
  rewrite (atan_shift_1 lo) in H1 by lra.
  rewrite (atan_shift_1 hi) in H2 by lra.
  pose proof (atan_bounds_1 _ (shift_in_unit lo Hlo)) as B1.
  assert (Hhi : 1 < hi) by lra.
  pose proof (atan_bounds_2 _ (shift_in_unit hi Hhi)) as B2.
  lra.
Qed.

Lemma atan_near_half_pi (x : R) : 1 < x -> PI / 2 - / x <= atan x < PI / 2.
Proof.
  intros Hx. split; [| apply atan_bound].
  assert (Hinv : 0 < / x < 1).
  { split; [apply Rinv_0_lt_compat; lra |].
    rewrite <- Rinv_1. apply Rinv_lt_contravar; lra. }
  pose proof (atan_bounds_1 _ Hinv) as B.
  rewrite atan_inv in B by lra. lra.
Qed.

Lemma atan_diff_upper (a b : R) : 1 < a -> atan b - atan a <= / a.
Proof.
  intros Ha. pose proof (atan_near_half_pi a Ha). pose proof (atan_bound b). lra.
Qed.

Lemma atan_diff_lower (a b : R) : 1 < b -> - / b <= atan b - atan a.
Proof.
  intros Hb. pose proof (atan_near_half_pi b Hb). pose proof (atan_bound a). lra.
Qed.

Lemma sqrt_between (l u a : R) :
  0 <= l -> 0 <= u -> l * l <= a <= u * u -> l <= sqrt a <= u.
Proof.
  intros Hl Hu [H1 H2]. split.
  - rewrite <- (sqrt_square l) by assumption. now apply sqrt_le_1_alt.
  - rewrite <- (sqrt_square u) by assumption. now apply sqrt_le_1_alt.
Qed.

(** ** Values of Stull's expression *)

Lemma stull_32_60 : 25.5 <= stull 32 60 <= 27.5.
Proof.
  unfold stull, pow_three_halves.
  replace (32 + 60) with 92 by lra.
  replace (60 - 1.676331) with 58.323669 by lra.
  replace (60 + 8.313659) with 68.313659 by lra.
  replace (0.023101 * 60) with 1.38606 by lra.
  pose proof PI_bounds as HPI.
  assert (Hs : 8.2652 <= sqrt 68.313659 <= 8.2653) by (apply sqrt_between; lra).
  assert (Hs60 : 7.745 <= sqrt 60 <= 7.746) by (apply sqrt_between; lra).
  assert (HA : 0.8984 <= atan (0.151977 * sqrt 68.313659) <= 0.8991).
  { pose proof (atan_enclose_1 (0.151977 * sqrt 68.313659) 1.25612 1.2562) as E.
    lapply E; [clear E; intros E | lra]. lapply E; [clear E; intros E | lra].
    lra. }
  assert (HB : 0.9457 <= atan 1.38606 <= 0.9474).
  { pose proof (atan_enclose_1 1.38606 1.38606 1.38606) as E.
    lapply E; [clear E; intros E | lra]. lapply E; [clear E; intros E | lra].
    lra. }
  assert (HD : 0 <= atan 92 - atan 58.323669 <= 0.0172).
  { split.
    - pose proof (atan_le 58.323669 92). lra.
    - pose proof (atan_diff_upper 58.323669 92). lra. }
  nra.
Qed.

Lemma saturation_coefficient :
  1.0068 <= atan (0.151977 * sqrt (100 + 8.313659)) <= 1.0072.
Proof.
  replace (100 + 8.313659) with 108.313659 by lra.
  pose proof PI_bounds as HPI.
  assert (Hs : 10.407 <= sqrt 108.313659 <= 10.408) by (apply sqrt_between; lra).
  pose proof (atan_enclose_2 (0.151977 * sqrt 108.313659) 1.5816 1.5818) as E.
  lapply E; [clear E; intros E | lra]. lapply E; [clear E; intros E | lra].
  lra.
Qed.

Lemma saturation_power_term :
  4.547 <= 0.00391838 * pow_three_halves 100 * atan (0.023101 * 100) <= 4.629.
Proof.
  unfold pow_three_halves.
  replace (0.023101 * 100) with 2.3101 by lra.
  assert (Hs : sqrt 100 = 10).
  { replace 100 with (10 * 10) by lra. apply sqrt_square. lra. }
  rewrite Hs.
  pose proof PI_bounds as HPI.
  pose proof (atan_enclose_1 2.3101 2.3101 2.3101) as E.
  lapply E; [clear E; intros E | lra]. lapply E; [clear E; intros E | lra].
  lra.
Qed.

Lemma stull_saturated (T : R) :
  -40 <= T <= 60 -> Rabs (stull T 100 - T) <= 0.5.
Proof.
  intros HT. unfold stull.
  pose proof saturation_coefficient as HA.
  pose proof saturation_power_term as HP.
  replace (100 - 1.676331) with 98.323669 by lra.
  assert (HD : - / 60 <= atan (T + 100) - atan 98.323669 <= / 98.323669).
  { split.
    - pose proof (atan_diff_lower 98.323669 60). pose proof (atan_le 60 (T + 100)).
      lra.
    - apply atan_diff_upper; lra. }
  set (A := atan (0.151977 * sqrt (100 + 8.313659))) in *.
  set (P := 0.00391838 * pow_three_halves 100 * atan (0.023101 * 100)) in *.
  set (D1 := atan (T + 100)) in *. set (D2 := atan 98.323669) in *.
  assert (HTA : -0.288 <= T * (A - 1) <= 0.432) by nra.
  apply Rabs_le. lra.
Qed.

Lemma stull_0_100_neg : stull 0 100 < 0.
Proof.
  unfold stull.
  pose proof saturation_power_term as HP.
  replace (100 - 1.676331) with 98.323669 by lra.
  replace (0 + 100) with 100 by lra.
  pose proof (atan_diff_upper 98.323669 100). lra.
Qed.

Lemma coefficient_pos (RH : R) : 0 <= RH -> 0 < atan (0.151977 * sqrt (RH + 8.313659)).
Proof.
  intros H. apply atan_pos. apply Rmult_lt_0_compat; [lra | apply sqrt_lt_R0; lra].
Qed.

Lemma stull_increasing_in_T (RH T1 T2 : R) :
  0 <= RH -> T1 < T2 -> stull T1 RH < stull T2 RH.
Proof.
  intros HRH HT. unfold stull.
  pose proof (coefficient_pos RH HRH) as HA.
  assert (HD : atan (T1 + RH) < atan (T2 + RH)) by (apply atan_increasing; lra).
  set (A := atan (0.151977 * sqrt (RH + 8.313659))) in *.
  assert (T1 * A < T2 * A) by (apply Rmult_lt_compat_r; assumption).
  lra.
Qed.

Lemma stull_25_50_10 : stull 25 10 <= stull 25 50.
Proof.
  unfold stull, pow_three_halves.
  replace (25 + 10) with 35 by lra. replace (25 + 50) with 75 by lra.
  replace (10 - 1.676331) with 8.323669 by lra.
  replace (50 - 1.676331) with 48.323669 by lra.
  replace (10 + 8.313659) with 18.313659 by lra.
  replace (50 + 8.313659) with 58.313659 by lra.
  replace (0.023101 * 10) with 0.23101 by lra.
  replace (0.023101 * 50) with 1.15505 by lra.
  pose proof PI_bounds as HPI.
  assert (Hs10 : 4.2 <= sqrt 18.313659 <= 4.3) by (apply sqrt_between; lra).
  assert (Hs50 : 7.6 <= sqrt 58.313659 <= 7.7) by (apply sqrt_between; lra).
  assert (Hr10 : 3.1 <= sqrt 10 <= 3.2) by (apply sqrt_between; lra).
  assert (Hr50 : 7 <= sqrt 50 <= 7.1) by (apply sqrt_between; lra).
  assert (HA10 : 0 <= atan (0.151977 * sqrt 18.313659) <= 0.6536).
  { pose proof (atan_bounds_1 (0.151977 * sqrt 18.313659)) as B.
    lapply B; [clear B; intros B | lra].
    pose proof (atan_pos (0.151977 * sqrt 18.313659)) as Q.
    lapply Q; [clear Q; intros Q | lra]. lra. }
  assert (HA50 : 0.785 <= atan (0.151977 * sqrt 58.313659)).
  { pose proof (atan_le 1 (0.151977 * sqrt 58.313659)) as B.
    rewrite atan_1 in B. lapply B; [clear B; intros B | lra]. lra. }
  assert (HD10 : atan 35 - atan 8.323669 <= 0.1202).
  { pose proof (atan_diff_upper 8.323669 35). lra. }
  assert (HD50 : 0 <= atan 75 - atan 48.323669).
  { pose proof (atan_le 48.323669 75). lra. }
  assert (HP10 : 0 <= atan 0.23101 <= 0.23101).
  { pose proof (atan_bounds_1 0.23101) as B. pose proof (atan_pos 0.23101). lra. }
  assert (HP50 : 0 <= atan 1.15505).
  { pose proof (atan_pos 1.15505). lra. }
  assert (HQ10 : 0.00391838 * (10 * sqrt 10) * atan 0.23101 <= 0.029) by nra.
  assert (HQ50 : 0 <= 0.00391838 * (50 * sqrt 50) * atan 1.15505) by nra.
  lra.
Qed.

Lemma stull_25_90_50 : stull 25 50 <= stull 25 90.
Proof.
  unfold stull, pow_three_halves.
  replace (25 + 90) with 115 by lra. replace (25 + 50) with 75 by lra.
  replace (90 - 1.676331) with 88.323669 by lra.
  replace (50 - 1.676331) with 48.323669 by lra.
  replace (90 + 8.313659) with 98.313659 by lra.
  replace (50 + 8.313659) with 58.313659 by lra.
  replace (0.023101 * 90) with 2.07909 by lra.
  replace (0.023101 * 50) with 1.15505 by lra.
  pose proof PI_bounds as HPI.
  assert (HA : atan (0.151977 * sqrt 58.313659) <= atan (0.151977 * sqrt 98.313659)).
  { apply atan_le. apply Rmult_le_compat_l; [lra |]. apply sqrt_le_1_alt. lra. }
  assert (Hr90 : 9.48 <= sqrt 90 <= 9.49) by (apply sqrt_between; lra).
  assert (Hr50 : 7 <= sqrt 50 <= 7.08) by (apply sqrt_between; lra).
  assert (HD50 : atan 75 - atan 48.323669 <= 0.0207).
  { pose proof (atan_diff_upper 48.323669 75). lra. }
  assert (HD90 : 0 <= atan 115 - atan 88.323669).
  { pose proof (atan_le 88.323669 115). lra. }
  assert (HP90 : 0.785 <= atan 2.07909).
  { pose proof (atan_le 1 2.07909) as B. rewrite atan_1 in B. lra. }
  assert (HP50 : 0 <= atan 1.15505 <= 1.5711).
  { pose proof (atan_pos 1.15505). pose proof (atan_bound 1.15505). lra. }
  assert (HQ90 : 2.62 <= 0.00391838 * (90 * sqrt 90) * atan 2.07909) by nra.
  assert (HQ50 : 0.00391838 * (50 * sqrt 50) * atan 1.15505 <= 2.18) by nra.
  lra.
Qed.

(** ** Properties of [calculateWetBulb] *)

(** C1: for a finite temperature in [-40, 60] and a finite humidity in
    [0, 100] the function returns Stull's expression at exactly these two
    values, with [atan] applied to the plain arguments. *)
Theorem calculateWetBulb_is_stull (T RH : R) :
  -40 <= T <= 60 -> 0 <= RH <= 100 ->
  calculateWetBulb (Fin T) (Fin RH) = Fin (stull T RH).
Proof. exact (calculateWetBulb_in_range T RH). Qed.

Lemma calculateWetBulb_is_stull_witness :
  (-40 <= 50 <= 60) /\ (0 <= 99 <= 100) /\
  calculateWetBulb (Fin 50) (Fin 99) = Fin (stull 50 99).
Proof.
  split; [lra |]. split; [lra |].
  apply (calculateWetBulb_is_stull 50 99); lra.
Defined.

(** C2: on finite inputs the result is the result at the clamped inputs,
    [Math.min(Math.max(T, -40), 60)] and [Math.min(Math.max(RH, 0), 100)];
    the four sampled equalities of the specification follow. *)
Theorem calculateWetBulb_clamps (t rh : R) :
  calculateWetBulb (Fin t) (Fin rh)
  = calculateWetBulb (Math_min (Math_max (Fin t) (Fin (-40))) (Fin 60))
                     (Math_min (Math_max (Fin rh) (Fin 0)) (Fin 100))
  /\ calculateWetBulb (Fin 100) (Fin 60) = calculateWetBulb (Fin 60) (Fin 60)
  /\ calculateWetBulb (Fin (-100)) (Fin 60) = calculateWetBulb (Fin (-40)) (Fin 60)
  /\ calculateWetBulb (Fin 25) (Fin 150) = calculateWetBulb (Fin 25) (Fin 100)
  /\ calculateWetBulb (Fin 25) (Fin (-10)) = calculateWetBulb (Fin 25) (Fin 0).
Proof.
  split.
  - change (Math_min (Math_max (Fin t) (Fin (-40))) (Fin 60))
      with (Fin (clamp_real (-40) 60 t)).
    change (Math_min (Math_max (Fin rh) (Fin 0)) (Fin 100))
      with (Fin (clamp_real 0 100 rh)).
    rewrite !calculateWetBulb_Fin.
    now rewrite !clamp_real_idempotent by lra.
  - rewrite !calculateWetBulb_Fin.
    rewrite (clamp_real_above (-40) 60 100) by lra.
    rewrite (clamp_real_below (-40) 60 (-100)) by lra.
    rewrite (clamp_real_above 0 100 150) by lra.
    rewrite (clamp_real_below 0 100 (-10)) by lra.
    rewrite !(clamp_real_inside (-40) 60) by lra.
    rewrite !(clamp_real_inside 0 100) by lra.
    repeat split; reflexivity.
Qed.

(** C3: the result is NaN, the page's undefined marker, exactly when one of
    the two arguments is not finite; finite arguments, in range or not,
    always give a finite number. *)
Theorem calculateWetBulb_NaN_iff (a b : number) :
  (calculateWetBulb a b = NaN
   <-> Number_isFinite a = false \/ Number_isFinite b = false)
  /\ (forall t rh : R, exists r : R, calculateWetBulb (Fin t) (Fin rh) = Fin r).
Proof.
  split.
  - split.
    + intros HNaN. destruct a as [| | | t]; try (left; reflexivity).
      destruct b as [| | | rh]; try (right; reflexivity).
      rewrite calculateWetBulb_Fin in HNaN. discriminate.
    + apply calculateWetBulb_not_finite.
  - intros t rh. eexists. apply calculateWetBulb_Fin.
Qed.

Lemma calculateWetBulb_NaN_iff_witness :
  calculateWetBulb NaN (Fin 60) = NaN /\
  calculateWetBulb (Fin 25) PosInfinity = NaN.
Proof.
  split.
  - apply (proj2 (proj1 (calculateWetBulb_NaN_iff NaN (Fin 60)))).
    left. reflexivity.
  - apply (proj2 (proj1 (calculateWetBulb_NaN_iff (Fin 25) PosInfinity))).
    right. reflexivity.
Defined.

(** C4: inside the two ranges the function returns a finite number. *)
Theorem calculateWetBulb_finite (T RH : R) :
  -40 <= T <= 60 -> 0 <= RH <= 100 ->
  Number_isFinite (calculateWetBulb (Fin T) (Fin RH)) = true.
Proof.
  intros _ _. now rewrite calculateWetBulb_Fin.
Qed.

Lemma calculateWetBulb_finite_witness :
  (-40 <= 32 <= 60) /\ (0 <= 60 <= 100) /\
  Number_isFinite (calculateWetBulb (Fin 32) (Fin 60)) = true.
Proof.
  split; [lra |]. split; [lra |].
  apply (calculateWetBulb_finite 32 60); lra.
Defined.

(** C5: a call of [calculateWetBulb] leaves the heap as it found it (the
    range objects, the variables of the script, the storage and the document),
    its value depends on the heap only through the two range objects, which
    the call does not write, so a second call with the same arguments returns
    the same value; with the objects as declared the value is
    [calculateWetBulb] of the arguments alone. *)
Theorem calculateWetBulb_pure (t rh : number) (h : heap) :
  snd (calculateWetBulb_js t rh h) = h
  /\ (forall h' : heap,
        objects h' TEMPERATURE_RANGE_ref = objects h TEMPERATURE_RANGE_ref ->
        objects h' HUMIDITY_RANGE_ref = objects h HUMIDITY_RANGE_ref ->
        fst (calculateWetBulb_js t rh h') = fst (calculateWetBulb_js t rh h))
  /\ fst (calculateWetBulb_js t rh (snd (calculateWetBulb_js t rh h)))
     = fst (calculateWetBulb_js t rh h)
  /\ (objects h TEMPERATURE_RANGE_ref = TEMPERATURE_RANGE ->
      objects h HUMIDITY_RANGE_ref = HUMIDITY_RANGE ->
      fst (calculateWetBulb_js t rh h) = calculateWetBulb t rh).
Proof.
  pose proof (calculateWetBulb_js_preserves_heap t rh h) as Hheap.
  split; [exact Hheap |]. split.
  - intros h' HT HRH. rewrite !calculateWetBulb_js_value, HT, HRH. reflexivity.
  - split; [now rewrite Hheap |].
    intros HT HRH. rewrite calculateWetBulb_js_value, HT, HRH. reflexivity.
Qed.

Lemma calculateWetBulb_pure_witness :
  snd (calculateWetBulb_js (Fin 32) (Fin 60)
         {| objects := declared_objects; page := fresh_page true false None |})
  = {| objects := declared_objects; page := fresh_page true false None |}
  /\ fst (calculateWetBulb_js (Fin 32) (Fin 60)
            {| objects := declared_objects; page := fresh_page true false None |})
     = calculateWetBulb (Fin 32) (Fin 60).
Proof.
  pose proof (calculateWetBulb_pure (Fin 32) (Fin 60)
                {| objects := declared_objects;
                   page := fresh_page true false None |})
    as [H1 [_ [_ H4]]].
  split; [exact H1 | exact (H4 eq_refl eq_refl)].
Defined.

(** C6: at 25 degrees the estimates at 10, 50 and 90 percent humidity are in
    this order. *)
Theorem calculateWetBulb_sampled_humidity_order :
  num_le (calculateWetBulb (Fin 25) (Fin 50)) (calculateWetBulb (Fin 25) (Fin 90))
  /\ num_le (calculateWetBulb (Fin 25) (Fin 10)) (calculateWetBulb (Fin 25) (Fin 50)).
Proof.
  rewrite !calculateWetBulb_in_range by lra. cbn [num_le].
  split; [apply stull_25_90_50 | apply stull_25_50_10].
Qed.

(** C7: the estimate at 32 degrees and 60 percent is within one degree of
    26.5. *)
Theorem calculateWetBulb_known_value :
  exists r : R,
    calculateWetBulb (Fin 32) (Fin 60) = Fin r /\ Rabs (r - 26.5) <= 1.
Proof.
  exists (stull 32 60). split.
  - apply calculateWetBulb_in_range; lra.
  - pose proof stull_32_60. apply Rabs_le. lra.
Qed.

(** C8, as the specification states it, fails: at 100 percent humidity and
    0 degrees the estimate is negative, not 0. *)
Lemma calculateWetBulb_saturated_not_equal :
  (-40 <= 0 <= 60) /\ calculateWetBulb (Fin 0) (Fin 100) <> Fin 0.
Proof.
  split; [lra |].
  rewrite calculateWetBulb_in_range by lra.
  intros E. injection E as E. pose proof stull_0_100_neg. lra.
Qed.

(** C8, amended: at 100 percent humidity the estimate stays within half a
    degree of the dry-bulb temperature, for every temperature of the range. *)
Theorem calculateWetBulb_saturated_close (T : R) :
  -40 <= T <= 60 ->
  exists r : R,
    calculateWetBulb (Fin T) (Fin 100) = Fin r /\ Rabs (r - T) <= 0.5.
Proof.
  intros HT. exists (stull T 100). split.
  - apply calculateWetBulb_in_range; lra.
  - now apply stull_saturated.
Qed.

Lemma calculateWetBulb_saturated_close_witness :
  (-40 <= 20 <= 60) /\
  exists r : R,
    calculateWetBulb (Fin 20) (Fin 100) = Fin r /\ Rabs (r - 20) <= 0.5.
Proof.
  split; [lra |]. apply (calculateWetBulb_saturated_close 20); lra.
Defined.

(** C10: on finite inputs the square root is taken of a number that is at
    least 8.313659, the power has a base between 0 and 100, both are the
    arguments the body uses, and neither operation yields NaN. *)
Theorem calculateWetBulb_partial_operations_in_domain (t rh : R) :
  exists s b : R,
    sqrt_argument (Fin rh) = Fin s /\ 8.313659 <= s /\ 0 < 8.313659
    /\ pow_base (Fin rh) = Fin b /\ 0 <= b <= 100
    /\ Math_sqrt (sqrt_argument (Fin rh)) = Fin (sqrt s)
    /\ Math_pow (pow_base (Fin rh)) (Fin 1.5) = Fin (pow_three_halves b)
    /\ calculateWetBulb (Fin t) (Fin rh)
       = (clamp (Fin t) TEMPERATURE_RANGE
            * Math_atan (Fin 0.151977 * Math_sqrt (sqrt_argument (Fin rh)))
          + Math_atan (clamp (Fin t) TEMPERATURE_RANGE + pow_base (Fin rh))
          - Math_atan (pow_base (Fin rh) - Fin 1.676331)
          + Fin 0.00391838 * Math_pow (pow_base (Fin rh)) (Fin 1.5)
            * Math_atan (Fin 0.023101 * pow_base (Fin rh))
          - Fin 4.686035)%num.
Proof.
  assert (Hb : 0 <= clamp_real 0 100 rh <= 100) by (apply clamp_real_bounds; lra).
  exists (clamp_real 0 100 rh + 8.313659), (clamp_real 0 100 rh).
  unfold sqrt_argument, pow_base, clamped_humidity.
  rewrite clamp_humidity. cbn [num_add].
  split; [reflexivity |]. split; [lra |]. split; [lra |].
  split; [reflexivity |]. split; [exact Hb |].
  split; [apply Math_sqrt_nonneg; lra |].
  split; [apply Math_pow_three_halves; lra |].
  rewrite <- clamp_humidity. reflexivity.
Qed.

(** ** More on [clamp] *)

Ltac rminmax :=
  unfold Rmin, Rmax in *;
  repeat match goal with
         | |- context [Rle_dec ?a ?b] => destruct (Rle_dec a b)
         | H : context [Rle_dec ?a ?b] |- _ => destruct (Rle_dec a b)
         end.

(** X1: when the range is ordered and the value is not NaN, the clamped
    value lies between the two bounds; this holds for infinite values and
    infinite bounds too. *)
Theorem clamp_within_range (v : number) (r : range) :
  v <> NaN -> num_le (min r) (max r) ->
  num_le (min r) (clamp v r) /\ num_le (clamp v r) (max r).
Proof.
  destruct r as [lo hi]. unfold clamp. cbn [min max].
  intros Hv Hr.
  destruct v as [| | | x]; [congruence | | |];
    destruct lo as [| | | l]; destruct hi as [| | | h];
    cbn in *; try tauto; rminmax; lra.
Qed.

Lemma clamp_within_range_witness :
  Fin 100 <> NaN /\ num_le (min TEMPERATURE_RANGE) (max TEMPERATURE_RANGE) /\
  num_le (min TEMPERATURE_RANGE) (clamp (Fin 100) TEMPERATURE_RANGE) /\
  num_le (clamp (Fin 100) TEMPERATURE_RANGE) (max TEMPERATURE_RANGE).
Proof.
  split; [discriminate |]. split; [cbn; lra |].
  apply (clamp_within_range (Fin 100) TEMPERATURE_RANGE); [discriminate | cbn; lra].
Defined.

(** X2: [clamp] returns NaN exactly when the value or one of the two bounds
    is NaN. *)
Theorem clamp_NaN_iff (v : number) (r : range) :
  clamp v r = NaN <-> v = NaN \/ min r = NaN \/ max r = NaN.
Proof.
  destruct r as [lo hi]. unfold clamp. cbn [min max].
  destruct v as [| | | x]; destruct lo as [| | | l]; destruct hi as [| | | h];
    cbn; split; intros H; try tauto; try discriminate;
    try (destruct H as [H | [H | H]]; discriminate).
Qed.

Lemma clamp_NaN_iff_witness :
  clamp (Fin 5) {| min := NaN; max := Fin 10 |} = NaN.
Proof.
  apply (proj2 (clamp_NaN_iff (Fin 5) {| min := NaN; max := Fin 10 |})).
  right. left. reflexivity.
Defined.

(** X3: when the bounds are the wrong way round, every value that is not NaN
    is sent to [max], the smaller of the two. *)
Theorem clamp_inverted_range (v : number) (r : range) :
  v <> NaN -> num_lt (max r) (min r) -> clamp v r = max r.
Proof.
  destruct r as [lo hi]. unfold clamp. cbn [min max].
  intros Hv Hr.
  destruct v as [| | | x]; [congruence | | |];
    destruct lo as [| | | l]; destruct hi as [| | | h];
    cbn in *; try tauto; try reflexivity; f_equal; rminmax; lra.
Qed.

Lemma clamp_inverted_range_witness :
  Fin 5 <> NaN /\ num_lt (Fin 0) (Fin 10) /\
  clamp (Fin 5) {| min := Fin 10; max := Fin 0 |} = Fin 0.
Proof.
  split; [discriminate |]. split; [cbn; lra |].
  apply (clamp_inverted_range (Fin 5) {| min := Fin 10; max := Fin 0 |});
    [discriminate | cbn; lra].
Defined.

(** X4: clamping twice is clamping once, whatever the value and the
    bounds. *)
Theorem clamp_idempotent (v : number) (r : range) :
  clamp (clamp v r) r = clamp v r.
Proof.
  destruct r as [lo hi]. unfold clamp. cbn [min max].
  destruct v as [| | | x]; destruct lo as [| | | l]; destruct hi as [| | | h];
    cbn; try reflexivity; f_equal; rminmax; lra.
Qed.

(** X5: [clamp] keeps the order of its values: if [v1 <= v2] and no bound
    is NaN then [clamp v1 r <= clamp v2 r]. *)
Theorem clamp_monotone (v1 v2 : number) (r : range) :
  min r <> NaN -> max r <> NaN -> num_le v1 v2 ->
  num_le (clamp v1 r) (clamp v2 r).
Proof.
  destruct r as [lo hi]. unfold clamp. cbn [min max].
  intros Hlo Hhi Hv.
  destruct lo as [| | | l]; [congruence | | |];
    (destruct hi as [| | | h]; [congruence | | |]);
    destruct v1 as [| | | x1]; destruct v2 as [| | | x2];
    cbn in *; try tauto; rminmax; lra.
Qed.

Lemma clamp_monotone_witness :
  min HUMIDITY_RANGE <> NaN /\ max HUMIDITY_RANGE <> NaN /\
  num_le (Fin (-10)) (Fin 150) /\
  num_le (clamp (Fin (-10)) HUMIDITY_RANGE) (clamp (Fin 150) HUMIDITY_RANGE).
Proof.
  split; [discriminate |]. split; [discriminate |]. split; [cbn; lra |].
  apply (clamp_monotone (Fin (-10)) (Fin 150) HUMIDITY_RANGE);
    [discriminate | discriminate | cbn; lra].
Defined.

(** X6: over an ordered range [clamp] leaves a value as it is exactly when
    the value is NaN or already lies between the bounds. *)
Theorem clamp_fixed_points (v : number) (r : range) :
  num_le (min r) (max r) ->
  (clamp v r = v <-> v = NaN \/ (num_le (min r) v /\ num_le v (max r))).
Proof.
  destruct r as [lo hi]. unfold clamp. cbn [min max].
  intros Hr.
  destruct v as [| | | x]; destruct lo as [| | | l]; destruct hi as [| | | h];
    cbn in *; try tauto;
    (split; [intros H | intros [H | [H1 H2]]]);
    try discriminate; try tauto; try (right; tauto);
    try (injection H as H); try (right; rminmax; lra);
    try (f_equal; rminmax; lra).
Qed.

Lemma clamp_fixed_points_witness :
  num_le (min TEMPERATURE_RANGE) (max TEMPERATURE_RANGE) /\
  (clamp (Fin 25) TEMPERATURE_RANGE = Fin 25
   <-> Fin 25 = NaN
       \/ (num_le (min TEMPERATURE_RANGE) (Fin 25)
           /\ num_le (Fin 25) (max TEMPERATURE_RANGE))).
Proof.
  split; [cbn; lra |].
  apply (clamp_fixed_points (Fin 25) TEMPERATURE_RANGE). cbn. lra.
Defined.

(** ** More on [calculateWetBulb] and its display *)

Lemma clamp_real_monotone (lo hi v1 v2 : R) :
  v1 <= v2 -> clamp_real lo hi v1 <= clamp_real lo hi v2.
Proof.
  intros H. unfold clamp_real.
  apply Rle_min_compat_r. apply Rle_max_compat_r. exact H.
Qed.

Lemma stull_weakly_increasing_in_T (RH T1 T2 : R) :
  0 <= RH -> T1 <= T2 -> stull T1 RH <= stull T2 RH.
Proof.
  intros HRH [Hlt | ->]; [| lra].
  left. now apply stull_increasing_in_T.
Qed.

(** X7: on all finite inputs, in range or not, a higher temperature never
    gives a lower estimate at the same humidity. *)
Theorem calculateWetBulb_weakly_increasing (t1 t2 rh : R) :
  t1 <= t2 ->
  num_le (calculateWetBulb (Fin t1) (Fin rh)) (calculateWetBulb (Fin t2) (Fin rh)).
Proof.
  intros H. rewrite !calculateWetBulb_Fin. cbn [num_le].
  apply stull_weakly_increasing_in_T.
  - apply clamp_real_bounds; lra.
  - now apply clamp_real_monotone.
Qed.

Lemma calculateWetBulb_weakly_increasing_witness :
  -100 <= 100 /\
  num_le (calculateWetBulb (Fin (-100)) (Fin 150))
         (calculateWetBulb (Fin 100) (Fin 150)).
Proof.
  split; [lra |]. apply (calculateWetBulb_weakly_increasing (-100) 100 150). lra.
Defined.

Lemma coefficient_bounds (RH : R) :
  0 <= RH <= 100 -> 0 < atan (0.151977 * sqrt (RH + 8.313659)) <= 1.0072.
Proof.
  intros H. split; [apply coefficient_pos; lra |].
  apply Rle_trans with (2 := proj2 saturation_coefficient).
  apply atan_le. apply Rmult_le_compat_l; [lra |].
  apply sqrt_le_1_alt. lra.
Qed.

Lemma power_term_bounds (RH : R) :
  0 <= RH <= 100 ->
  0 <= 0.00391838 * pow_three_halves RH * atan (0.023101 * RH) <= 4.629.
Proof.
  intros H.
  assert (Hs : 0 <= sqrt RH <= 10).
  { split; [apply sqrt_pos |].
    replace 10 with (sqrt (10 * 10)) by (apply sqrt_square; lra).
    apply sqrt_le_1_alt. lra. }
  assert (Ha : 0 <= atan (0.023101 * RH) <= atan (0.023101 * 100)).
  { split.
    - rewrite <- atan_0. apply atan_le. lra.
    - apply atan_le. lra. }
  pose proof saturation_power_term as [_ HP]. unfold pow_three_halves in *.
  assert (E100 : sqrt 100 = 10).
  { replace 100 with (10 * 10) by lra. apply sqrt_square. lra. }
  rewrite E100 in HP.
  set (a := atan (0.023101 * RH)) in *.
  set (a100 := atan (0.023101 * 100)) in *.
  set (s := sqrt RH) in *.
  assert (Hp : 0 <= RH * s <= 1000) by nra.
  split; [| apply Rle_trans with (0.00391838 * (100 * 10) * a100); [| exact HP]]; nra.
Qed.

Lemma stull_bounds (T RH : R) :
  -40 <= T <= 60 -> 0 <= RH <= 100 -> -49 <= stull T RH <= 64.
Proof.
  intros HT HRH. unfold stull. cbv zeta.
  pose proof (coefficient_bounds RH HRH) as HA.
  pose proof (power_term_bounds RH HRH) as HP.
  pose proof (atan_bound (T + RH)) as H1.
  pose proof (atan_bound (RH - 1.676331)) as H2.
  pose proof PI_bounds as HPI.
  set (A := atan (0.151977 * sqrt (RH + 8.313659))) in *.
  assert (HTA : -40.3 <= T * A <= 60.5) by nra.
  lra.
Qed.

(** X8: on all finite inputs the estimate is a finite number between -49
    and 64. *)
Theorem calculateWetBulb_result_range (t rh : R) :
  exists r : R, calculateWetBulb (Fin t) (Fin rh) = Fin r /\ -49 <= r <= 64.
Proof.
  eexists. split; [apply calculateWetBulb_Fin |].
  apply stull_bounds; apply clamp_real_bounds; lra.
Qed.

(** X9: the text shown for the result, [formatNumber(wetBulb)] after the
    reactive statement has run, is the dash when the temperature or the
    humidity is not finite, and otherwise the locale's formatting of Stull's
    expression at the clamped inputs. *)
Theorem displayed_result (toLocaleString : R -> string) (s : component) :
  formatNumber toLocaleString (wetBulb (react_wetBulb s))
  = match temperature s, humidity s with
    | Fin t, Fin rh =>
        toLocaleString (stull (clamp_real (-40) 60 t) (clamp_real 0 100 rh))
    | _, _ => "—"%string
    end.
Proof.
  unfold react_wetBulb, call_calculateWetBulb, ret. cbn [wetBulb].
  destruct (temperature s) as [| | | t]; try reflexivity.
  destruct (humidity s) as [| | | rh]; try reflexivity.
  now rewrite calculateWetBulb_Fin.
Qed.

(** ** The theme code *)

Lemma classList_contains_app (token : string) (l1 l2 : list string) :
  classList_contains token (l1 ++ l2)
  = classList_contains token l1 || classList_contains token l2.
Proof. apply existsb_app. Qed.

Lemma classList_toggle_contains (token : string) (force : bool) (l : list string) :
  classList_contains token (classList_toggle token force l) = force.
Proof.
  unfold classList_toggle. destruct force.
  - destruct (classList_contains token l) eqn:E; [exact E |].
    rewrite classList_contains_app, E. cbn. now rewrite String.eqb_refl.
  - unfold classList_contains. induction l as [| c l IH]; [reflexivity |].
    cbn. destruct (String.eqb token c) eqn:E; cbn; [exact IH |].
    now rewrite E.
Qed.

Lemma classList_toggle_others (token c : string) (force : bool) (l : list string) :
  c <> token ->
  classList_contains c (classList_toggle token force l) = classList_contains c l.
Proof.
  intros Hne. unfold classList_toggle. destruct force.
  - destruct (classList_contains token l); [reflexivity |].
    rewrite classList_contains_app. cbn.
    apply String.eqb_neq in Hne. rewrite Hne. now rewrite !orb_false_r.
  - unfold classList_contains. induction l as [| d l IH]; [reflexivity |].
    cbn. destruct (String.eqb token d) eqn:E; cbn.
    + apply String.eqb_eq in E. subst d.
      apply String.eqb_neq in Hne. now rewrite Hne.
    + now rewrite IH.
Qed.

Lemma removeEventListener_added (h : nat) (l : list nat) :
  ~ In h l -> removeEventListener h (addEventListener h l) = l.
Proof.
  intros Hnin. unfold addEventListener.
  assert (E : existsb (Nat.eqb h) l = false).
  { apply not_true_is_false. intros Hex. apply existsb_exists in Hex.
    destruct Hex as [k [Hk Hhk]]. apply Nat.eqb_eq in Hhk. now subst. }
  rewrite E. unfold removeEventListener. rewrite filter_app. cbn.
  rewrite Nat.eqb_refl. cbn. rewrite app_nil_r.
  induction l as [| k l IH]; [reflexivity |].
  cbn. destruct (Nat.eqb h k) eqn:Ehk.
  - apply Nat.eqb_eq in Ehk. subst. exfalso. apply Hnin. now left.
  - cbn. f_equal. apply IH.
    + intros Hin. apply Hnin. now right.
    + cbn in E. rewrite Ehk in E. exact E.
Qed.

Lemma existsb_addEventListener (h : nat) (l : list nat) :
  existsb (Nat.eqb h) (addEventListener h l) = true.
Proof.
  unfold addEventListener. destruct (existsb (Nat.eqb h) l) eqn:E; [exact E |].
  rewrite existsb_app. cbn. rewrite Nat.eqb_refl. now rewrite orb_true_r.
Qed.

Lemma existsb_removeEventListener (h : nat) (l : list nat) :
  existsb (Nat.eqb h) (removeEventListener h l) = false.
Proof.
  unfold removeEventListener. induction l as [| k l IH]; [reflexivity |].
  cbn. destruct (Nat.eqb h k) eqn:E; cbn; [exact IH |]. now rewrite E.
Qed.

(** X10: in the browser, [updateTheme] leaves the document and the storage
    in step with [isDark]: the class [dark] is present exactly when [isDark]
    holds, the other classes are as before, the colour scheme and the stored
    theme are the matching name, and [isDark] itself is not changed. *)
Theorem updateTheme_consistent (w : world) :
  browser w = true ->
  classList_contains "dark" (classList (updateTheme w)) = isDark (vars w)
  /\ (forall c : string, c <> "dark"%string ->
        classList_contains c (classList (updateTheme w))
        = classList_contains c (classList w))
  /\ colorScheme (updateTheme w) = (if isDark (vars w) then "dark" else "light")%string
  /\ localStorage_getItem_theme (updateTheme w)
     = Some (if isDark (vars w) then "dark" else "light")%string
  /\ isDark (vars (updateTheme w)) = isDark (vars w).
Proof.
  intros Hb. unfold updateTheme. rewrite Hb.
  cbn -[classList_contains classList_toggle].
  split; [apply classList_toggle_contains |].
  split; [intros c Hc; now apply classList_toggle_others |].
  repeat split.
Qed.

Lemma updateTheme_consistent_witness :
  browser (fresh_page true true None) = true /\
  classList_contains "dark" (classList (updateTheme (fresh_page true true None)))
  = false /\
  localStorage_getItem_theme (updateTheme (fresh_page true true None))
  = Some "light"%string.
Proof.
  split; [reflexivity |].
  pose proof (updateTheme_consistent (fresh_page true true None) eq_refl)
    as [H1 [_ [_ [H4 _]]]].
  split; [exact H1 | exact H4].
Defined.

Lemma onMount_callback_in_browser (w : world) :
  browser w = true ->
  onMount_callback w
  = set_browser_side (Some prefers_color_scheme_dark) (Some (nextClosure w))
      (S (nextClosure w))
      (addEventListener (nextClosure w) (changeListeners w))
      (set_isDark (mounted_isDark w) w).
Proof.
  intros Hb. unfold onMount_callback, mounted_isDark, matches. rewrite Hb.
  cbn [negb]. cbv zeta.
  destruct (theme_is "dark" (localStorage_getItem_theme w)
            || theme_is "light" (localStorage_getItem_theme w)); reflexivity.
Qed.

Lemma mediaQueryHandler_body_idempotent (m : bool) (w : world) :
  mediaQueryHandler_body m (mediaQueryHandler_body m w)
  = mediaQueryHandler_body m w.
Proof.
  unfold mediaQueryHandler_body, localStorage_getItem_theme.
  destruct (storedTheme (vars w)) eqn:E; [now rewrite E |].
  cbn. rewrite E. reflexivity.
Qed.

Lemma dispatch_change_listening (m : bool) (l : list nat) (w : world) :
  l <> [] -> dispatch_change m l w = mediaQueryHandler_body m w.
Proof.
  unfold dispatch_change. destruct l as [| k l]; [congruence |]. intros _.
  cbn [fold_left]. induction l as [| k' l IH]; [reflexivity |].
  cbn [fold_left]. now rewrite mediaQueryHandler_body_idempotent.
Qed.

Lemma addEventListener_not_empty (h : nat) (l : list nat) :
  addEventListener h l <> [].
Proof.
  unfold addEventListener. destruct (existsb (Nat.eqb h) l) eqn:E.
  - destruct l; [discriminate | discriminate].
  - destruct l; discriminate.
Qed.

Lemma dispatch_change_added (m : bool) (h : nat) (l : list nat) (w : world) :
  dispatch_change m (addEventListener h l) w = mediaQueryHandler_body m w.
Proof. apply dispatch_change_listening, addEventListener_not_empty. Qed.

Ltac theme_cbv :=
  cbv beta iota zeta delta
    [preference_change set_prefersDark onDestroy_callback updateTheme
     clearStoredTheme page_start run_reactive_statements
     localStorage_getItem_theme
     localStorage_setItem_theme localStorage_removeItem_theme
     localStorage_write_theme set_isDark set_vars set_browser_side
     set_document matches
     browser vars mediaQuery mediaQueryHandler nextClosure prefersDark
     changeListeners classList colorScheme
     temperature humidity isDark wetBulb storedTheme negb].

Ltac handler_cbv :=
  cbv beta iota zeta delta
    [mediaQueryHandler_body localStorage_getItem_theme set_isDark set_vars
     browser vars mediaQuery mediaQueryHandler nextClosure prefersDark
     changeListeners classList colorScheme
     temperature humidity isDark wetBulb storedTheme].

Ltac mounted w Hb :=
  rewrite !(onMount_callback_in_browser w Hb);
  generalize (mounted_isDark w); intros dark;
  destruct w as [b [t hu d wb st] q h n p ls cl cs];
  cbv [browser] in Hb; subst b;
  theme_cbv;
  rewrite ?dispatch_change_added;
  handler_cbv.

(** X11: at its start in the browser the page does not restore a stored
    theme: the reactive [updateTheme] stores the theme of the declared
    [isDark] before the callback of [onMount] reads the storage, so [isDark]
    stays as declared and the stored theme is overwritten, whatever was
    stored and whatever the system prefers. *)
Theorem page_start_keeps_declared_theme (w : world) :
  browser w = true ->
  isDark (vars (page_start w)) = isDark (vars w)
  /\ localStorage_getItem_theme (page_start w)
     = Some (if isDark (vars w) then "dark" else "light")%string.
Proof.
  intros Hb. unfold page_start.
  assert (Hb' : browser (run_reactive_statements w) = true).
  { unfold run_reactive_statements, updateTheme. rewrite Hb. exact Hb. }
  rewrite (onMount_callback_in_browser _ Hb').
  assert (Hm : mounted_isDark (run_reactive_statements w) = isDark (vars w)).
  { unfold mounted_isDark, run_reactive_statements, updateTheme. rewrite Hb.
    destruct w as [b [t hu d wb st] q h n p ls cl cs]. theme_cbv.
    destruct d; reflexivity. }
  rewrite Hm. clear Hm Hb'.
  destruct w as [b [t hu d wb st] q h n p ls cl cs].
  cbv [browser] in Hb; subst b. theme_cbv. split; reflexivity.
Qed.

Lemma page_start_keeps_declared_theme_witness :
  browser (fresh_page true true (Some "dark"%string)) = true /\
  isDark (vars (page_start (fresh_page true true (Some "dark"%string)))) = false /\
  localStorage_getItem_theme (page_start (fresh_page true true (Some "dark"%string)))
  = Some "light"%string.
Proof.
  split; [reflexivity |].
  exact (page_start_keeps_declared_theme
           (fresh_page true true (Some "dark"%string)) eq_refl).
Defined.

(** X12: after the start of the page a change of the system's preference
    does not change [isDark]: the start always leaves a theme stored, so the
    handler finds one. *)
Theorem preference_ignored_after_page_start (m : bool) (w : world) :
  browser w = true ->
  isDark (vars (preference_change m (page_start w))) = isDark (vars w).
Proof.
  intros Hb. unfold page_start.
  assert (Hb' : browser (run_reactive_statements w) = true).
  { unfold run_reactive_statements, updateTheme. rewrite Hb. exact Hb. }
  rewrite (onMount_callback_in_browser _ Hb').
  assert (Hm : mounted_isDark (run_reactive_statements w) = isDark (vars w)).
  { unfold mounted_isDark, run_reactive_statements, updateTheme. rewrite Hb.
    destruct w as [b [t hu d wb st] q h n p ls cl cs]. theme_cbv.
    destruct d; reflexivity. }
  rewrite Hm. clear Hm Hb'.
  destruct w as [b [t hu d wb st] q h n p ls cl cs].
  cbv [browser] in Hb; subst b. theme_cbv.
  rewrite dispatch_change_added. handler_cbv. reflexivity.
Qed.

Lemma preference_ignored_after_page_start_witness :
  browser (fresh_page true false None) = true /\
  isDark (vars (preference_change true (page_start (fresh_page true false None))))
  = false.
Proof.
  split; [reflexivity |].
  exact (preference_ignored_after_page_start true
           (fresh_page true false None) eq_refl).
Defined.

(** X13: once mounted, a change of the system's preference sets [isDark]
    when no theme is stored and leaves it alone when one is. *)
Theorem preference_change_after_mount (m : bool) (w : world) :
  browser w = true ->
  isDark (vars (preference_change m (onMount_callback w)))
  = match localStorage_getItem_theme w with
    | None => m
    | Some _ => isDark (vars (onMount_callback w))
    end.
Proof.
  intros Hb. mounted w Hb. destruct st; reflexivity.
Qed.

Lemma preference_change_after_mount_witness :
  browser (fresh_page true false None) = true /\
  isDark (vars (preference_change true (onMount_callback (fresh_page true false None))))
  = true.
Proof.
  split; [reflexivity |].
  apply (preference_change_after_mount true (fresh_page true false None)).
  reflexivity.
Defined.

(** X14: on a mounted page [clearStoredTheme] removes the stored theme and
    sets [isDark] to the current preference of the system, and from then on
    every change of that preference sets [isDark]. *)
Theorem clearStoredTheme_follows_system (w : world) :
  browser w = true ->
  localStorage_getItem_theme (clearStoredTheme (onMount_callback w)) = None
  /\ isDark (vars (clearStoredTheme (onMount_callback w))) = prefersDark w
  /\ forall m : bool,
       isDark (vars (preference_change m (clearStoredTheme (onMount_callback w))))
       = m.
Proof.
  intros Hb. mounted w Hb.
  split; [reflexivity |]. split; [reflexivity |].
  intros m. rewrite dispatch_change_added. handler_cbv. reflexivity.
Qed.

Lemma clearStoredTheme_follows_system_witness :
  browser (fresh_page true true (Some "light"%string)) = true /\
  isDark (vars (clearStoredTheme
                  (onMount_callback (fresh_page true true (Some "light"%string)))))
  = true.
Proof.
  split; [reflexivity |].
  exact (proj1 (proj2 (clearStoredTheme_follows_system
                         (fresh_page true true (Some "light"%string)) eq_refl))).
Defined.

(** X15: a run of [updateTheme] after [clearStoredTheme] stores a theme
    again, the one of the system's preference at that moment, and later
    changes of the preference no longer reach [isDark]. *)
Theorem updateTheme_pins_theme_again (m : bool) (w : world) :
  browser w = true ->
  localStorage_getItem_theme (updateTheme (clearStoredTheme (onMount_callback w)))
  = Some (if prefersDark w then "dark" else "light")%string
  /\ isDark (vars (preference_change m
                     (updateTheme (clearStoredTheme (onMount_callback w)))))
     = prefersDark w.
Proof.
  intros Hb. mounted w Hb. split; reflexivity.
Qed.

Lemma updateTheme_pins_theme_again_witness :
  browser (fresh_page true true None) = true /\
  isDark (vars (preference_change false
                  (updateTheme (clearStoredTheme
                                  (onMount_callback (fresh_page true true None))))))
  = true.
Proof.
  split; [reflexivity |].
  exact (proj2 (updateTheme_pins_theme_again false
                  (fresh_page true true None) eq_refl)).
Defined.

(** X16: [onDestroy] takes off the listener that [onMount] put on: the
    listeners of the media query are as before the mount, and when none was
    registered before, a later change of the preference does not reach
    [isDark]. *)
Theorem onDestroy_unregisters (m : bool) (w : world) :
  browser w = true ->
  ~ In (nextClosure w) (changeListeners w) ->
  changeListeners (onDestroy_callback (onMount_callback w)) = changeListeners w
  /\ (changeListeners w = [] ->
      isDark (vars (preference_change m (onDestroy_callback (onMount_callback w))))
      = isDark (vars (onMount_callback w))).
Proof.
  intros Hb Hfresh.
  assert (Hrm := removeEventListener_added _ _ Hfresh).
  revert Hrm. clear Hfresh.
  rewrite !(onMount_callback_in_browser w Hb).
  generalize (mounted_isDark w); intros dark.
  destruct w as [b [t hu d wb st] q h n p ls cl cs].
  cbv [browser] in Hb; subst b. theme_cbv. intros Hrm.
  split; [exact Hrm |].
  intros Hls. rewrite Hrm, Hls. reflexivity.
Qed.

Lemma onDestroy_unregisters_witness :
  browser (fresh_page true false None) = true /\
  ~ In (nextClosure (fresh_page true false None))
       (changeListeners (fresh_page true false None)) /\
  changeListeners (onDestroy_callback (onMount_callback (fresh_page true false None)))
  = [] /\
  isDark (vars (preference_change true
                  (onDestroy_callback
                     (onMount_callback (fresh_page true false None)))))
  = isDark (vars (onMount_callback (fresh_page true false None))).
Proof.
  split; [reflexivity |]. split; [intros [] |].
  pose proof (onDestroy_unregisters true (fresh_page true false None)
                eq_refl (fun H : False => H)) as [H1 H2].
  split; [exact H1 | exact (H2 eq_refl)].
Defined.

(** X17: outside the browser, where nothing was mounted, the four functions
    of the theme code change nothing: no variable, no storage, no document. *)
Theorem theme_code_idle_outside_browser (w : world) :
  browser w = false -> mediaQuery w = None ->
  onMount_callback w = w /\ updateTheme w = w
  /\ clearStoredTheme w = w /\ onDestroy_callback w = w.
Proof.
  intros Hb Hq. unfold onMount_callback, updateTheme, clearStoredTheme,
    onDestroy_callback. rewrite Hb, Hq. cbn [negb]. repeat split.
Qed.

Lemma theme_code_idle_outside_browser_witness :
  browser (fresh_page false true None) = false /\
  mediaQuery (fresh_page false true None) = None /\
  updateTheme (fresh_page false true None) = fresh_page false true None.
Proof.
  split; [reflexivity |]. split; [reflexivity |].
  exact (proj1 (proj2 (theme_code_idle_outside_browser
                         (fresh_page false true None) eq_refl eq_refl))).
Defined.
